(** * pi-agent-demo: the two extension scripts under [.pi/extensions]

    [security.ts] subscribes a guard to the host's [tool_call] event and vetoes
    shell commands that mention [sudo]; [hello-world.ts] registers a slash
    command that shows a fixed notification.

    The scripts are embedded as computations in a small monad that threads the
    state a handler can reach (the event objects the host hands out by
    reference, and the host's notification subsystem), can end in a thrown
    error, and records every property read and method call.  Both handlers are
    [async] functions without an [await]: they run to completion when called,
    [Normal v] is the promise fulfilled with [v] and [Throw e] the promise
    rejected with [e]. *)

From Stdlib Require Import String Ascii List Bool ZArith Lia.
From ExtLib Require Import Structures.Monad.
Import ListNotations.
Import MonadNotation.
Local Open Scope string_scope.
Local Open Scope monad_scope.

(** ** JavaScript data *)

Module JS.

#[local] Set Warnings "-register-all".

(** Values that travel in tool-call payloads and handler results: plain data,
    no function values.  Numbers are kept as integers; no arithmetic is done
    on them anywhere in the scripts.  Strings are Stdlib strings, sequences of
    characters that [includes] compares one by one. *)
Inductive Value : Type :=
| Undefined
| Null
| Bool (b : bool)
| Number (n : Z)
| Str (s : string)
| Array (elements : list Value)
| Object (properties : list (string * Value)).

Inductive Error : Type :=
| TypeError (message : string)
| InternalError (message : string).

(** [s.includes(searchString)]: is there a position of [s] at which
    [searchString] starts? *)
Fixpoint includes (s searchString : string) : bool :=
  prefix searchString s ||
  match s with
  | EmptyString => false
  | String _ rest => includes rest searchString
  end.

(** SameValueZero against a string: only an equal string matches. *)
Definition sameValueZero_string (x : string) (v : Value) : bool :=
  match v with
  | Str s => String.eqb s x
  | _ => false
  end.

(** [elements.includes(searchElement)] for a string [searchElement]. *)
Definition array_includes (elements : list Value) (searchElement : string) : bool :=
  existsb (sameValueZero_string searchElement) elements.

(** Own data property of an object, [Undefined] when absent. *)
Fixpoint lookup (name : string) (properties : list (string * Value)) : Value :=
  match properties with
  | [] => Undefined
  | (key, v) :: rest => if String.eqb key name then v else lookup name rest
  end.

End JS.

(** ** The state handlers run against, and the handler monad *)

Module Host.

(** [ctx.ui.notify(message, level)] takes its level from this set. *)
Inductive NotifyLevel : Type := info | success | warning | error.

Record Notification : Type := mkNotification {
  message : string;
  level : NotifyLevel
}.

(** A tool-call event object: the discriminator [toolName], the tool
    parameters [input], and whatever other properties the host puts on it. *)
Record ToolCallEvent : Type := mkToolCallEvent {
  toolName : string;
  input : JS.Value;
  others : list (string * JS.Value)
}.

(** Handlers receive the event object by reference; the host keeps it. *)
Definition EventRef : Type := nat.

Record Store : Type := mkStore {
  events : list ToolCallEvent;
  notifications : list Notification
}.

(** The context object handed to every handler. *)
Record ExtensionContext : Type := mkContext {
  cwd : string;
  hasUI : bool
}.

(** What a handler has looked at or called. *)
Inductive Access : Type :=
| Field (event : EventRef) (name : string)
| Member (name : string)
| Invoke (method : string).

Inductive Completion (A : Type) : Type :=
| Normal (a : A)
| Throw (e : JS.Error).
Arguments Normal {A} a.
Arguments Throw {A} e.

Record Run (A : Type) : Type := mkRun {
  outcome : Completion A;
  final : Store;
  trace : list Access
}.
Arguments mkRun {A} outcome final trace.
Arguments outcome {A} r.
Arguments final {A} r.
Arguments trace {A} r.

Definition M (A : Type) : Type := Store -> Run A.

Definition M_ret {A : Type} (a : A) : M A :=
  fun st => mkRun (Normal a) st [].

(** Sequencing: a thrown error skips the rest, keeping the state and the
    trace reached so far. *)
Definition M_bind {A B : Type} (c : M A) (k : A -> M B) : M B :=
  fun st =>
    match c st with
    | mkRun (Normal a) st1 t1 =>
        match k a st1 with
        | mkRun o st2 t2 => mkRun o st2 (t1 ++ t2)
        end
    | mkRun (Throw e) st1 t1 => mkRun (Throw e) st1 t1
    end.

#[export] Instance Monad_M : Monad M :=
  {| ret := @M_ret; bind := @M_bind |}.

Definition throw {A : Type} (e : JS.Error) : M A :=
  fun st => mkRun (Throw e) st [].

Definition access (a : Access) : M unit :=
  fun st => mkRun (Normal tt) st [a].

(** Following an event reference.  The host only hands out references to
    event objects it holds; a dangling one ends the run. *)
Definition deref (event : EventRef) : M ToolCallEvent :=
  fun st =>
    match nth_error (events st) event with
    | Some e => mkRun (Normal e) st []
    | None => mkRun (Throw (JS.InternalError "dangling event reference")) st []
    end.

(** [event.toolName] *)
Definition get_toolName (event : EventRef) : M string :=
  access (Field event "toolName") ;;
  e <- deref event ;;
  ret (toolName e).

(** [event.input] *)
Definition get_input (event : EventRef) : M JS.Value :=
  access (Field event "input") ;;
  e <- deref event ;;
  ret (input e).

(** [v.command]: reading a property of [undefined] or [null] throws; an
    object yields its own property; strings, arrays, numbers and booleans
    have no property of that name. *)
Definition get_command (v : JS.Value) : M JS.Value :=
  access (Member "command") ;;
  match v with
  | JS.Undefined =>
      throw (JS.TypeError "Cannot read properties of undefined (reading 'command')")
  | JS.Null =>
      throw (JS.TypeError "Cannot read properties of null (reading 'command')")
  | JS.Object properties => ret (JS.lookup "command" properties)
  | _ => ret JS.Undefined
  end.

(** [v.includes(searchString)]: the string method on a string, the array
    method on an array; every other value of the data universe has no
    callable [includes]. *)
Definition call_includes (v : JS.Value) (searchString : string) : M bool :=
  access (Invoke "includes") ;;
  match v with
  | JS.Str s => ret (JS.includes s searchString)
  | JS.Array elements => ret (JS.array_includes elements searchString)
  | JS.Undefined =>
      throw (JS.TypeError "Cannot read properties of undefined (reading 'includes')")
  | JS.Null =>
      throw (JS.TypeError "Cannot read properties of null (reading 'includes')")
  | _ => throw (JS.TypeError "includes is not a function")
  end.

(** Modelled from the spec: the host library's [isToolCallEventType], which is
    imported by [security.ts] and not part of the repository.  The event
    exposes a tool-type discriminator; the test compares it with the
    requested tool type. *)
Definition isToolCallEventType (name : string) (event : EventRef) : M bool :=
  n <- get_toolName event ;;
  ret (String.eqb n name).

(** Modelled from the spec: the host's [ctx.ui.notify], a call into the
    notification subsystem with a message and a level; the subsystem's state
    is the sequence of calls it has received. *)
Definition notify (ctx : ExtensionContext) (msg : string) (lvl : NotifyLevel) : M unit :=
  fun st =>
    mkRun (Normal tt)
          (mkStore (events st) (notifications st ++ [mkNotification msg lvl]))
          [].

Definition ToolCallHandler : Type := EventRef -> ExtensionContext -> M JS.Value.

Record Command : Type := mkCommand {
  description : string;
  handler : string -> ExtensionContext -> M JS.Value
}.

(** The registration side of [ExtensionAPI]: what has been subscribed and
    registered so far. *)
Record ExtensionAPI : Type := mkAPI {
  listeners : list (string * ToolCallHandler);
  commands : list (string * Command)
}.

Definition empty_api : ExtensionAPI := mkAPI [] [].

(** [pi.on(eventName, h)] *)
Definition on (pi : ExtensionAPI) (eventName : string) (h : ToolCallHandler) : ExtensionAPI :=
  mkAPI (listeners pi ++ [(eventName, h)]) (commands pi).

(** [pi.registerCommand(name, options)] *)
Definition registerCommand (pi : ExtensionAPI) (name : string) (options : Command) : ExtensionAPI :=
  mkAPI (listeners pi) (commands pi ++ [(name, options)]).

(** Modelled from the spec: the host's dispatch loop, which calls the
    subscribed handler once per event, in sequence, each call starting from
    the state the previous one left; a handler error is the host's to catch
    and does not stop the loop. *)
Fixpoint dispatch (h : ToolCallHandler) (ctx : ExtensionContext)
         (evs : list EventRef) (st : Store) : list (Completion JS.Value) * Store :=
  match evs with
  | [] => ([], st)
  | ev :: rest =>
      let r := h ev ctx st in
      let (outs, st') := dispatch h ctx rest (final r) in
      (outcome r :: outs, st')
  end.

End Host.

(** ** [.pi/extensions/security.ts] *)

Module Security.
Import Host.

Definition isBash (event : EventRef) : M bool :=
  isToolCallEventType "bash" event.

Definition containsSudo (event : EventRef) : M bool :=
  i <- get_input event ;;
  c <- get_command i ;;
  call_includes c "sudo".

Definition block (reason : string) : JS.Value :=
  JS.Object [("block", JS.Bool true); ("reason", JS.Str reason)].

(** The [tool_call] handler subscribed by the default export. *)
Definition tool_call_handler (event : EventRef) (ctx : ExtensionContext) : M JS.Value :=
  b <- isBash event ;;
  if negb b then ret JS.Undefined
  else
    s <- containsSudo event ;;
    if s then ret (block "dangerous command, sudo is not allowed for agent")
    else ret JS.Undefined.

(** The default export. *)
Definition security (pi : ExtensionAPI) : ExtensionAPI :=
  on pi "tool_call" tool_call_handler.

End Security.

(** ** [.pi/extensions/hello-world.ts] *)

Module HelloWorld.
Import Host.

(** The handler of the [hello-world] command. *)
Definition hello_handler (_args : string) (ctx : ExtensionContext) : M JS.Value :=
  notify ctx "hello world" info ;;
  ret JS.Undefined.

Definition myExtension (pi : ExtensionAPI) : ExtensionAPI :=
  registerCommand pi "hello-world"
    (mkCommand "Prints 'hello' to the terminal" hello_handler).

End HelloWorld.

(** ** Vocabulary of the contract *)

Module Contract.
Import Host.

(** [sub] occurs somewhere inside [s]. *)
Definition contains (s sub : string) : Prop :=
  exists pre post, s = pre ++ sub ++ post.

(** [e] is an event of the shell tool type whose input object carries the
    command string [command]. *)
Definition BashToolCallEvent (e : ToolCallEvent) (command : string) : Prop :=
  toolName e = "bash" /\
  exists properties,
    input e = JS.Object properties /\
    JS.lookup "command" properties = JS.Str command.

(** The event type of the host: the shell discriminator comes with a
    command string; other tool types put no constraint on the payload. *)
Definition well_typed (e : ToolCallEvent) : Prop :=
  toolName e = "bash" -> exists command, BashToolCallEvent e command.

(** The two result shapes of the guard's return contract. *)
Definition decision_shape (v : JS.Value) : Prop :=
  v = JS.Undefined \/
  exists (flag : bool) (reason : string),
    v = JS.Object [("block", JS.Bool flag); ("reason", JS.Str reason)].

(** The outcome of handling the event behind [ev] on its own: a fresh host
    state that holds this one event object and nothing else. *)
Definition in_isolation (h : ToolCallHandler) (ctx : ExtensionContext)
           (st : Store) (ev : EventRef) : Completion JS.Value :=
  match nth_error (events st) ev with
  | Some e => outcome (h 0 ctx (mkStore [e] []))
  | None => outcome (h ev ctx (mkStore [] []))
  end.

Definition sudo_reason : string :=
  "dangerous command, sudo is not allowed for agent".

End Contract.

(** ** Sample inputs *)

Module Samples.
Import Host.

Definition sample_ctx : ExtensionContext := mkContext "/home/agent/project" true.

(** A shell tool call as the host builds it: the command and a timeout. *)
Definition bash_event (command : string) : ToolCallEvent :=
  mkToolCallEvent "bash"
    (JS.Object [("command", JS.Str command); ("timeout", JS.Number 30)])
    [("type", JS.Str "tool_call"); ("toolCallId", JS.Str "call_1")].

(** A file write whose payload happens to mention a command. *)
Definition write_event : ToolCallEvent :=
  mkToolCallEvent "write"
    (JS.Object [("path", JS.Str "run.sh"); ("command", JS.Str "sudo reboot")])
    [("type", JS.Str "tool_call"); ("toolCallId", JS.Str "call_2")].

Definition sample_store : Store :=
  mkStore [bash_event "sudo rm -rf /"; bash_event "ls -la"; write_event] [].

End Samples.

(** ** Vocabulary for edge cases and repeated use *)

Module Edges.
Import Host.

(** The values on which [.includes(...)] can be called at all. *)
Definition has_includes (v : JS.Value) : bool :=
  match v with
  | JS.Str _ | JS.Array _ => true
  | _ => false
  end.

(** The character [c] occurs in [s]. *)
Definition occurs (c : ascii) (s : string) : Prop :=
  In c (list_ascii_of_string s).

(** The four accesses of a run that gets as far as the substring test. *)
Definition full_trace (ev : EventRef) : list Access :=
  [Field ev "toolName"; Field ev "input"; Member "command"; Invoke "includes"].

(** Modelled from the spec: the host invoking a registered command once per
    argument string, one invocation after the other, each starting from the
    state the previous one left. *)
Fixpoint invoke_each (h : string -> ExtensionContext -> M JS.Value)
         (ctx : ExtensionContext) (argv : list string) (st : Store) : Store :=
  match argv with
  | [] => st
  | args :: rest => invoke_each h ctx rest (final (h args ctx st))
  end.

(** A shell tool call whose input object has no [command]. *)
Definition bash_event_without_command : ToolCallEvent :=
  mkToolCallEvent "bash" (JS.Object [("timeout", JS.Number 30)]) [].

(** A shell tool call whose [command] is an argument vector. *)
Definition bash_event_argv (argv : list string) : ToolCallEvent :=
  mkToolCallEvent "bash" (JS.Object [("command", JS.Array (map JS.Str argv))]) [].

(** A shell tool call without any input. *)
Definition bash_event_without_input : ToolCallEvent :=
  mkToolCallEvent "bash" JS.Undefined [].

End Edges.

(** ** Facts about string search *)

Module StringFacts.
Import Contract.

Lemma prefix_true_iff (p s : string) :
  prefix p s = true <-> exists post, s = p ++ post.
Proof.
  revert s. induction p as [|a p IH]; intros s; simpl.
  - destruct s; split; intros; eauto.
  - destruct s as [|b s]; simpl.
    + split; [discriminate | intros [post H]; discriminate].
    + destruct (ascii_dec a b) as [->|Hne].
      * rewrite IH. split; intros [post H]; exists post.
        -- now rewrite H.
        -- now inversion H.
      * split; [discriminate | intros [post H]; inversion H; congruence].
Qed.

Lemma includes_nil (sub : string) :
  JS.includes "" sub = prefix sub "" || false.
Proof. reflexivity. Qed.

Lemma includes_cons (a : ascii) (s sub : string) :
  JS.includes (String a s) sub = prefix sub (String a s) || JS.includes s sub.
Proof. reflexivity. Qed.

Lemma includes_true_iff (s sub : string) :
  JS.includes s sub = true <-> contains s sub.
Proof.
  unfold contains. induction s as [|a s IH].
  - rewrite includes_nil, orb_false_r, prefix_true_iff. split.
    + intros [post H]. exists "", post. exact H.
    + intros [pre [post H]]. destruct pre; [|discriminate].
      exists post. exact H.
  - rewrite includes_cons, orb_true_iff, prefix_true_iff, IH. split.
    + intros [[post H] | [pre [post H]]].
      * exists "", post. exact H.
      * exists (String a pre), post. simpl. now rewrite H.
    + intros [pre [post H]]. destruct pre as [|b pre]; simpl in H.
      * left. exists post. exact H.
      * right. exists pre, post. now inversion H.
Qed.

Lemma includes_false_iff (s sub : string) :
  JS.includes s sub = false <-> ~ contains s sub.
Proof.
  rewrite <- includes_true_iff. destruct (JS.includes s sub); split; intros H;
    try reflexivity; try discriminate; try (intros H'; discriminate).
  exfalso. apply H. reflexivity.
Qed.

End StringFacts.

(** ** How the guard runs *)

Module GuardFacts.
Import Host Security Contract.

Ltac unfold_guard :=
  unfold tool_call_handler, isBash, containsSudo, isToolCallEventType,
    get_toolName, get_input, get_command, call_includes, deref, access, throw,
    bind, ret, Monad_M, M_bind, M_ret;
  cbn [outcome final trace app].

(** A dangling reference stops at the first read. *)
Lemma guard_dangling (st : Store) (ev : EventRef) (ctx : ExtensionContext) :
  nth_error (events st) ev = None ->
  tool_call_handler ev ctx st =
    mkRun (Throw (JS.InternalError "dangling event reference")) st
          [Field ev "toolName"].
Proof.
  intros H. unfold_guard. rewrite H. reflexivity.
Qed.

(** Any other discriminator: one read, no decision. *)
Lemma guard_other_tool (st : Store) (ev : EventRef) (ctx : ExtensionContext)
      (e : ToolCallEvent) :
  nth_error (events st) ev = Some e ->
  String.eqb (toolName e) "bash" = false ->
  tool_call_handler ev ctx st =
    mkRun (Normal JS.Undefined) st [Field ev "toolName"].
Proof.
  intros H Hn. unfold_guard. rewrite H.
  cbn [outcome final trace app].
  rewrite Hn. reflexivity.
Qed.

(** The shell discriminator with a command string: four accesses, and the
    decision is the substring test. *)
Lemma guard_bash_command (st : Store) (ev : EventRef) (ctx : ExtensionContext)
      (e : ToolCallEvent) (command : string) :
  nth_error (events st) ev = Some e ->
  BashToolCallEvent e command ->
  tool_call_handler ev ctx st =
    mkRun (Normal (if JS.includes command "sudo"
                   then block "dangerous command, sudo is not allowed for agent"
                   else JS.Undefined))
          st
          [Field ev "toolName"; Field ev "input"; Member "command";
           Invoke "includes"].
Proof.
  intros H [Hb [properties [Hi Hc]]]. unfold_guard. rewrite H.
  cbn [outcome final trace app].
  rewrite Hb. cbn. rewrite H. cbn. rewrite Hi. cbn. rewrite Hc. cbn.
  destruct (JS.includes command "sudo"); reflexivity.
Qed.

(** The whole case analysis of one run: the reference, the discriminator,
    the shape of the input, the shape of the command. *)
Ltac guard_cases st ev :=
  unfold_guard;
  let H := fresh "Hev" in
  destruct (nth_error (events st) ev) as [?e|] eqn:H;
  cbn [outcome final trace app];
  [ destruct (String.eqb (toolName e) "bash") eqn:?Hname;
    cbn;
    [ rewrite ?H; cbn;
      destruct (input e) as [ | | ?b | ?n | ?s | ?elements | ?properties ] eqn:?Hinput;
      cbn;
      [ .. | destruct (JS.lookup "command" properties)
               as [ | | ?b | ?n | ?s | ?elements | ?properties0 ] eqn:?Hcommand;
             cbn ]
    | ]
  | ].

(** The guard writes nothing: every run ends in the state it started in. *)
Lemma guard_final (st : Store) (ev : EventRef) (ctx : ExtensionContext) :
  final (tool_call_handler ev ctx st) = st.
Proof.
  guard_cases st ev; try reflexivity;
    match goal with
    | |- context [if ?c then _ else _] => destruct c; reflexivity
    end.
Qed.

(** The three ways a run can end. *)
Lemma guard_outcomes (st : Store) (ev : EventRef) (ctx : ExtensionContext) :
  outcome (tool_call_handler ev ctx st) = Normal JS.Undefined \/
  outcome (tool_call_handler ev ctx st) = Normal (block sudo_reason) \/
  exists err, outcome (tool_call_handler ev ctx st) = Throw err.
Proof.
  guard_cases st ev; eauto;
    match goal with
    | |- context [if ?c then _ else _] => destruct c; cbn; auto
    end.
Qed.

(** The outcome is decided by the event object alone: not by where it sits
    in the store, by the other events, by the notifications, or by the
    context. *)
Lemma guard_outcome_of_event (st : Store) (ev : EventRef)
      (ctx ctx' : ExtensionContext) (e : ToolCallEvent) :
  nth_error (events st) ev = Some e ->
  outcome (tool_call_handler ev ctx st) =
  outcome (tool_call_handler 0 ctx' (mkStore [e] [])).
Proof.
  intros H. unfold_guard. rewrite H. cbn.
  destruct (String.eqb (toolName e) "bash"); cbn; [|reflexivity].
  rewrite H. cbn.
  destruct (input e) as [ | | b | n | s | elements | properties ]; cbn;
    try reflexivity.
  destruct (JS.lookup "command" properties) as [ | | b | n | s | elements | props ];
    cbn; try reflexivity;
    match goal with
    | |- context [if ?c then _ else _] => destruct c; reflexivity
    end.
Qed.

Lemma guard_isolated (st : Store) (ev : EventRef) (ctx ctx' : ExtensionContext) :
  outcome (tool_call_handler ev ctx st) =
  in_isolation tool_call_handler ctx' st ev.
Proof.
  unfold in_isolation.
  destruct (nth_error (events st) ev) as [e|] eqn:H.
  - apply guard_outcome_of_event. exact H.
  - rewrite !guard_dangling; auto.
    cbn. now destruct ev.
Qed.

End GuardFacts.

(** ** Dispatching a handler that keeps no state *)

Module DispatchFacts.
Import Host Contract.

Section Memoryless.
Variable h : ToolCallHandler.
Hypothesis h_final :
  forall ev ctx st, final (h ev ctx st) = st.
Hypothesis h_isolated :
  forall st ev ctx ctx', outcome (h ev ctx st) = in_isolation h ctx' st ev.

(** Each call starts from the untouched store, so the loop is a [map]. *)
Lemma dispatch_memoryless (ctx ctx' : ExtensionContext) (evs : list EventRef)
      (st : Store) :
  dispatch h ctx evs st = (map (in_isolation h ctx' st) evs, st).
Proof.
  induction evs as [|ev rest IH]; cbn [dispatch map].
  - reflexivity.
  - rewrite h_final, IH, (h_isolated st ev ctx ctx'). reflexivity.
Qed.

(** The number of outcomes is the number of events: one call per event. *)
Lemma dispatch_length (ctx : ExtensionContext) (evs : list EventRef) (st : Store) :
  length (fst (dispatch h ctx evs st)) = length evs.
Proof.
  rewrite (dispatch_memoryless ctx ctx). cbn [fst]. apply length_map.
Qed.
End Memoryless.

End DispatchFacts.

(** ** The guard's contract *)

Module GuardSpec.
Import Host Security Contract Samples.

Fact security_subscribes :
  listeners (security empty_api) = [("tool_call", tool_call_handler)].
Proof. reflexivity. Qed.

(** C1: a shell tool call whose command string contains "sudo" anywhere
    (lower case, exactly these four characters) is answered with a block
    decision: the block flag is true and the reason is a non-empty string. *)
Theorem sudo_command_is_blocked
        (st : Store) (ev : EventRef) (ctx : ExtensionContext)
        (e : ToolCallEvent) (command : string) :
  nth_error (events st) ev = Some e ->
  BashToolCallEvent e command ->
  contains command "sudo" ->
  exists reason,
    outcome (tool_call_handler ev ctx st) =
      Normal (JS.Object [("block", JS.Bool true); ("reason", JS.Str reason)]) /\
    reason <> "".
Proof.
  intros Hev Hbash Hsub.
  apply StringFacts.includes_true_iff in Hsub.
  rewrite (GuardFacts.guard_bash_command st ev ctx e command Hev Hbash).
  cbn [outcome]. rewrite Hsub.
  eexists. split; [reflexivity | discriminate].
Qed.

Lemma sudo_command_is_blocked_witness :
  exists reason,
    outcome (tool_call_handler 0 sample_ctx sample_store) =
      Normal (JS.Object [("block", JS.Bool true); ("reason", JS.Str reason)]) /\
    reason <> "".
Proof.
  apply (sudo_command_is_blocked sample_store 0 sample_ctx
           (bash_event "sudo rm -rf /") "sudo rm -rf /").
  - reflexivity.
  - split; [reflexivity|]. eexists. split; reflexivity.
  - exists "", " rm -rf /". reflexivity.
Defined.

(** C2: a shell tool call whose command string does not contain "sudo" gets
    no decision: the handler returns undefined. *)
Theorem sudo_free_command_is_allowed
        (st : Store) (ev : EventRef) (ctx : ExtensionContext)
        (e : ToolCallEvent) (command : string) :
  nth_error (events st) ev = Some e ->
  BashToolCallEvent e command ->
  ~ contains command "sudo" ->
  outcome (tool_call_handler ev ctx st) = Normal JS.Undefined.
Proof.
  intros Hev Hbash Hsub.
  apply StringFacts.includes_false_iff in Hsub.
  rewrite (GuardFacts.guard_bash_command st ev ctx e command Hev Hbash).
  cbn [outcome]. rewrite Hsub. reflexivity.
Qed.

Lemma sudo_free_command_is_allowed_witness :
  outcome (tool_call_handler 1 sample_ctx sample_store) = Normal JS.Undefined.
Proof.
  apply (sudo_free_command_is_allowed sample_store 1 sample_ctx
           (bash_event "ls -la") "ls -la").
  - reflexivity.
  - split; [reflexivity|]. eexists. split; reflexivity.
  - apply StringFacts.includes_false_iff. reflexivity.
Defined.

(** C3: the three example commands.  "sudo rm -rf /" is blocked with the
    reason "dangerous command, sudo is not allowed for agent"; "ls -la" gets
    no decision; "echo sudoku" is blocked as well, the match being a plain
    substring test.  This holds whatever else the event, the store and the
    context hold. *)
Theorem guard_examples
        (ctx : ExtensionContext) (more : list (string * JS.Value))
        (others : list (string * JS.Value)) (rest : list ToolCallEvent)
        (notes : list Notification) :
  let run command :=
    outcome
      (tool_call_handler 0 ctx
         (mkStore
            (mkToolCallEvent "bash"
               (JS.Object (("command", JS.Str command) :: more)) others
             :: rest)
            notes)) in
  run "sudo rm -rf /" =
    Normal (JS.Object
              [("block", JS.Bool true);
               ("reason", JS.Str "dangerous command, sudo is not allowed for agent")]) /\
  run "ls -la" = Normal JS.Undefined /\
  run "echo sudoku" =
    Normal (JS.Object
              [("block", JS.Bool true);
               ("reason", JS.Str "dangerous command, sudo is not allowed for agent")]).
Proof.
  cbv zeta. repeat split; reflexivity.
Qed.

(** The match is case-sensitive: upper-case "SUDO" passes. *)
Example upper_case_passes :
  outcome (tool_call_handler 0 sample_ctx (mkStore [bash_event "SUDO ls"] []))
  = Normal JS.Undefined.
Proof. reflexivity. Qed.

(** C4: an event whose discriminator is not the shell type gets no decision,
    and the only thing the handler reads is the discriminator: neither
    [event.input] nor a [command] inside it is touched, so nothing the
    payload holds can lead to a block. *)
Theorem other_tool_is_not_inspected
        (st : Store) (ev : EventRef) (ctx : ExtensionContext)
        (e : ToolCallEvent) :
  nth_error (events st) ev = Some e ->
  toolName e <> "bash" ->
  outcome (tool_call_handler ev ctx st) = Normal JS.Undefined /\
  trace (tool_call_handler ev ctx st) = [Field ev "toolName"].
Proof.
  intros Hev Hname.
  apply String.eqb_neq in Hname.
  rewrite (GuardFacts.guard_other_tool st ev ctx e Hev Hname).
  split; reflexivity.
Qed.

Lemma other_tool_is_not_inspected_witness :
  outcome (tool_call_handler 2 sample_ctx sample_store) = Normal JS.Undefined /\
  trace (tool_call_handler 2 sample_ctx sample_store) = [Field 2 "toolName"].
Proof.
  apply (other_tool_is_not_inspected sample_store 2 sample_ctx write_event).
  - reflexivity.
  - discriminate.
Defined.

(** C6: the decision is a function of the command string.  Two shell tool
    calls with the same command string get the same outcome, whatever else
    differs: the rest of the input object, the other event properties, the
    position in the store, the store around them, the context. *)
Theorem decision_depends_on_command_only
        (st1 st2 : Store) (ev1 ev2 : EventRef) (ctx1 ctx2 : ExtensionContext)
        (e1 e2 : ToolCallEvent) (command : string) :
  nth_error (events st1) ev1 = Some e1 ->
  nth_error (events st2) ev2 = Some e2 ->
  BashToolCallEvent e1 command ->
  BashToolCallEvent e2 command ->
  outcome (tool_call_handler ev1 ctx1 st1) =
  outcome (tool_call_handler ev2 ctx2 st2).
Proof.
  intros H1 H2 B1 B2.
  rewrite (GuardFacts.guard_bash_command st1 ev1 ctx1 e1 command H1 B1).
  rewrite (GuardFacts.guard_bash_command st2 ev2 ctx2 e2 command H2 B2).
  reflexivity.
Qed.

Lemma decision_depends_on_command_only_witness :
  outcome (tool_call_handler 1 sample_ctx sample_store) =
  outcome (tool_call_handler 0 (mkContext "/tmp" false)
             (mkStore
                [mkToolCallEvent "bash" (JS.Object [("command", JS.Str "ls -la")]) []]
                [mkNotification "hello world" info])).
Proof.
  apply (decision_depends_on_command_only _ _ 1 0 _ _
           (bash_event "ls -la")
           (mkToolCallEvent "bash" (JS.Object [("command", JS.Str "ls -la")]) [])
           "ls -la").
  - reflexivity.
  - reflexivity.
  - split; [reflexivity|]. eexists. split; reflexivity.
  - split; [reflexivity|]. eexists. split; reflexivity.
Defined.

(** C7: the return contract.  Whatever the event, a value the handler
    returns is either undefined or an object made of a boolean [block] and a
    string [reason], and nothing else; and on every event of the host's event
    type (the shell discriminator comes with a command string) the handler
    does return. *)
Theorem guard_return_contract
        (st : Store) (ev : EventRef) (ctx : ExtensionContext) :
  (forall v, outcome (tool_call_handler ev ctx st) = Normal v -> decision_shape v) /\
  (forall e,
      nth_error (events st) ev = Some e ->
      well_typed e ->
      exists v, outcome (tool_call_handler ev ctx st) = Normal v /\ decision_shape v).
Proof.
  assert (Hshape : forall v,
             outcome (tool_call_handler ev ctx st) = Normal v -> decision_shape v).
  { intros v Hv.
    destruct (GuardFacts.guard_outcomes st ev ctx) as [H | [H | [err H]]];
      rewrite H in Hv; inversion Hv; subst.
    - left. reflexivity.
    - right. exists true, sudo_reason. reflexivity. }
  split; [exact Hshape|].
  intros e Hev Hty.
  destruct (String.eqb (toolName e) "bash") eqn:Hname.
  - apply String.eqb_eq in Hname. destruct (Hty Hname) as [command Hbash].
    eexists. split.
    + rewrite (GuardFacts.guard_bash_command st ev ctx e command Hev Hbash).
      reflexivity.
    + apply Hshape.
      rewrite (GuardFacts.guard_bash_command st ev ctx e command Hev Hbash).
      reflexivity.
  - exists JS.Undefined. split.
    + rewrite (GuardFacts.guard_other_tool st ev ctx e Hev Hname). reflexivity.
    + left. reflexivity.
Qed.

Lemma guard_return_contract_witness :
  decision_shape (block "dangerous command, sudo is not allowed for agent") /\
  exists v, outcome (tool_call_handler 2 sample_ctx sample_store) = Normal v /\
            decision_shape v.
Proof.
  split.
  - apply (proj1 (guard_return_contract sample_store 0 sample_ctx)).
    reflexivity.
  - apply (proj2 (guard_return_contract sample_store 2 sample_ctx) write_event).
    + reflexivity.
    + intros H. discriminate H.
Defined.

(** C8: the guard keeps nothing between invocations.  Run over any sequence
    of events, one after the other on the same store, it gives for each event
    the outcome that event gets on its own in a fresh store, and it leaves
    the store (event objects and notifications alike) exactly as it found
    it. *)
Theorem guard_is_memoryless
        (ctx ctx' : ExtensionContext) (evs : list EventRef) (st : Store) :
  dispatch tool_call_handler ctx evs st =
    (map (in_isolation tool_call_handler ctx' st) evs, st).
Proof.
  apply DispatchFacts.dispatch_memoryless.
  - intros ev0 ctx0 st0. apply GuardFacts.guard_final.
  - intros st0 ev0 ctx0 ctx1. apply GuardFacts.guard_isolated.
Qed.

(** C9: there is no explicit allow.  A value the handler returns is either
    undefined or the one block object, with [block] true and the fixed
    reason; an object with [block] false never comes back. *)
Theorem guard_never_allows_explicitly
        (st : Store) (ev : EventRef) (ctx : ExtensionContext) (v : JS.Value) :
  outcome (tool_call_handler ev ctx st) = Normal v ->
  v = JS.Undefined \/
  v = JS.Object
        [("block", JS.Bool true);
         ("reason", JS.Str "dangerous command, sudo is not allowed for agent")].
Proof.
  intros Hv.
  destruct (GuardFacts.guard_outcomes st ev ctx) as [H | [H | [err H]]];
    rewrite H in Hv; inversion Hv; subst; auto.
Qed.

Lemma guard_never_allows_explicitly_witness :
  block "dangerous command, sudo is not allowed for agent" = JS.Undefined \/
  block "dangerous command, sudo is not allowed for agent" =
    JS.Object
      [("block", JS.Bool true);
       ("reason", JS.Str "dangerous command, sudo is not allowed for agent")].
Proof.
  apply (guard_never_allows_explicitly sample_store 0 sample_ctx).
  reflexivity.
Defined.

End GuardSpec.

(** ** The greeting command's contract *)

Module GreetingSpec.
Import Host HelloWorld.

(** C5: the handler registered for the [hello-world] command, on every
    invocation and for every argument, makes exactly one notification call,
    with message "hello world" and level "info", and returns undefined; it
    reads and changes nothing else. *)
Theorem greeting_notifies_once :
  exists cmd,
    commands (myExtension empty_api) = [("hello-world", cmd)] /\
    forall (args : string) (ctx : ExtensionContext) (st : Store),
      handler cmd args ctx st =
        mkRun (Normal JS.Undefined)
              (mkStore (events st)
                       (notifications st ++ [mkNotification "hello world" info]))
              [].
Proof.
  eexists. split; [reflexivity|].
  intros args ctx st. reflexivity.
Qed.

(** C10: the argument plays no part.  Two invocations that differ in the
    argument only run identically: the same single notification, with the
    same message and level, the same result. *)
Theorem greeting_ignores_argument
        (args1 args2 : string) (ctx : ExtensionContext) (st : Store) :
  hello_handler args1 ctx st = hello_handler args2 ctx st /\
  notifications (final (hello_handler args1 ctx st)) =
    (notifications st ++ [mkNotification "hello world" info])%list.
Proof.
  split; reflexivity.
Qed.

End GreetingSpec.

(** ** Further facts about strings, objects and runs *)

Module EdgeFacts.
Import Host Security Contract Edges.

Lemma string_length_app (a b : string) :
  String.length (a ++ b) = String.length a + String.length b.
Proof.
  induction a as [|c a IH]; cbn; [reflexivity | now rewrite IH].
Qed.

Lemma string_app_assoc (a b c : string) : (a ++ b) ++ c = a ++ (b ++ c).
Proof.
  induction a as [|x a IH]; cbn; [reflexivity | now rewrite IH].
Qed.

(** A string that holds [sub] is at least as long as [sub]. *)
Lemma contains_length (s sub : string) :
  contains s sub -> String.length sub <= String.length s.
Proof.
  intros [pre [post ->]]. rewrite !string_length_app. lia.
Qed.

(** Holding a substring survives wrapping. *)
Lemma contains_wrap (a s b sub : string) :
  contains s sub -> contains (a ++ s ++ b) sub.
Proof.
  intros [pre [post ->]]. exists (a ++ pre), (post ++ b).
  now rewrite !string_app_assoc.
Qed.

(** Every character of a substring occurs in the whole. *)
Lemma occurs_app (c : ascii) (pre rest : string) :
  occurs c (pre ++ String c rest).
Proof.
  unfold occurs. induction pre as [|x pre IH]; cbn; auto.
Qed.

(** A key that is not among the properties reads as undefined. *)
Lemma lookup_absent (name : string) (properties : list (string * JS.Value)) :
  (forall v, ~ In (name, v) properties) ->
  JS.lookup name properties = JS.Undefined.
Proof.
  induction properties as [|[key v] rest IH]; intros Habs; cbn.
  - reflexivity.
  - destruct (String.eqb key name) eqn:Hk.
    + apply String.eqb_eq in Hk. subst key.
      exfalso. apply (Habs v). left. reflexivity.
    + apply IH. intros w Hin. apply (Habs w). right. exact Hin.
Qed.

(** The array method finds exactly the elements equal to the string. *)
Lemma array_includes_true_iff (elements : list JS.Value) (x : string) :
  JS.array_includes elements x = true <-> In (JS.Str x) elements.
Proof.
  unfold JS.array_includes. rewrite existsb_exists. split.
  - intros [v [Hin Hv]]. destruct v; try discriminate.
    cbn in Hv. apply String.eqb_eq in Hv. now subst.
  - intros Hin. exists (JS.Str x). split; [exact Hin|].
    cbn. apply String.eqb_refl.
Qed.

(** A shell tool call with a value of any kind under [command]. *)
Lemma guard_bash_object (st : Store) (ev : EventRef) (ctx : ExtensionContext)
      (e : ToolCallEvent) (properties : list (string * JS.Value)) :
  nth_error (events st) ev = Some e ->
  toolName e = "bash" ->
  input e = JS.Object properties ->
  tool_call_handler ev ctx st =
    match JS.lookup "command" properties with
    | JS.Str s =>
        mkRun (Normal (if JS.includes s "sudo" then block sudo_reason
                       else JS.Undefined)) st (full_trace ev)
    | JS.Array elements =>
        mkRun (Normal (if JS.array_includes elements "sudo" then block sudo_reason
                       else JS.Undefined)) st (full_trace ev)
    | JS.Undefined =>
        mkRun (Throw (JS.TypeError
                 "Cannot read properties of undefined (reading 'includes')"))
              st (full_trace ev)
    | JS.Null =>
        mkRun (Throw (JS.TypeError
                 "Cannot read properties of null (reading 'includes')"))
              st (full_trace ev)
    | _ =>
        mkRun (Throw (JS.TypeError "includes is not a function"))
              st (full_trace ev)
    end.
Proof.
  intros H Hb Hi. GuardFacts.unfold_guard. rewrite H.
  cbn [outcome final trace app].
  rewrite Hb. cbn. rewrite H. cbn. rewrite Hi. cbn.
  destruct (JS.lookup "command" properties); cbn; try reflexivity;
    match goal with
    | |- context [if ?c then _ else _] => destruct c; reflexivity
    end.
Qed.

(** A shell tool call whose input is not an object. *)
Lemma guard_bash_no_object (st : Store) (ev : EventRef) (ctx : ExtensionContext)
      (e : ToolCallEvent) :
  nth_error (events st) ev = Some e ->
  toolName e = "bash" ->
  (forall properties, input e <> JS.Object properties) ->
  exists err, outcome (tool_call_handler ev ctx st) = Throw err.
Proof.
  intros H Hb Hi. GuardFacts.unfold_guard. rewrite H.
  cbn [outcome final trace app].
  rewrite Hb. cbn. rewrite H. cbn.
  destruct (input e) eqn:Hin; cbn; eauto.
  exfalso. apply (Hi properties). reflexivity.
Qed.

End EdgeFacts.

(** ** Edge behaviour of the guard *)

Module GuardEdges.
Import Host Security Contract Samples Edges.

(** X1: the guard blocks nothing but shell commands that mention sudo.
    Whenever the handler returns a decision object, the event is a shell tool
    call whose input object has, under [command], either a string that
    contains "sudo" or an array with the element "sudo". *)
Theorem block_only_for_sudo
        (st : Store) (ev : EventRef) (ctx : ExtensionContext) (v : JS.Value) :
  outcome (tool_call_handler ev ctx st) = Normal v ->
  v <> JS.Undefined ->
  exists e properties,
    nth_error (events st) ev = Some e /\
    toolName e = "bash" /\
    input e = JS.Object properties /\
    ((exists s, JS.lookup "command" properties = JS.Str s /\ contains s "sudo") \/
     (exists elements, JS.lookup "command" properties = JS.Array elements /\
                       In (JS.Str "sudo") elements)).
Proof.
  intros Hv Hne.
  destruct (nth_error (events st) ev) as [e|] eqn:Hev.
  2:{ rewrite (GuardFacts.guard_dangling st ev ctx Hev) in Hv. discriminate. }
  destruct (String.eqb (toolName e) "bash") eqn:Hname.
  2:{ rewrite (GuardFacts.guard_other_tool st ev ctx e Hev Hname) in Hv.
      inversion Hv. congruence. }
  apply String.eqb_eq in Hname.
  destruct (input e) as [ | | b | n | s | elements | properties ] eqn:Hin;
    try (destruct (EdgeFacts.guard_bash_no_object st ev ctx e Hev Hname) as [err He];
         [ intros p Hp; rewrite Hin in Hp; discriminate
         | rewrite He in Hv; discriminate ]).
  exists e, properties. repeat (split; [assumption || reflexivity|]).
  rewrite (EdgeFacts.guard_bash_object st ev ctx e properties Hev Hname Hin) in Hv.
  destruct (JS.lookup "command" properties) as [ | | b | n | s | elements | props ];
    cbn in Hv; try discriminate.
  - left. exists s. split; [reflexivity|].
    apply StringFacts.includes_true_iff.
    destruct (JS.includes s "sudo"); [reflexivity | inversion Hv; congruence].
  - right. exists elements. split; [reflexivity|].
    apply EdgeFacts.array_includes_true_iff.
    destruct (JS.array_includes elements "sudo");
      [reflexivity | inversion Hv; congruence].
Qed.

Lemma block_only_for_sudo_witness :
  exists e properties,
    nth_error (events sample_store) 0 = Some e /\
    toolName e = "bash" /\
    input e = JS.Object properties /\
    ((exists s, JS.lookup "command" properties = JS.Str s /\ contains s "sudo") \/
     (exists elements, JS.lookup "command" properties = JS.Array elements /\
                       In (JS.Str "sudo") elements)).
Proof.
  apply (block_only_for_sudo sample_store 0 sample_ctx
           (block "dangerous command, sudo is not allowed for agent")).
  - reflexivity.
  - discriminate.
Defined.

(** X2: on a shell tool call the handler comes back with a value (instead of
    rejecting) exactly when the input is an object whose [command] is a
    string or an array; with any other payload the call to [includes]
    fails. *)
Theorem bash_returns_iff
        (st : Store) (ev : EventRef) (ctx : ExtensionContext) (e : ToolCallEvent) :
  nth_error (events st) ev = Some e ->
  toolName e = "bash" ->
  ((exists v, outcome (tool_call_handler ev ctx st) = Normal v) <->
   (exists properties,
       input e = JS.Object properties /\
       has_includes (JS.lookup "command" properties) = true)).
Proof.
  intros Hev Hname. split.
  - intros [v Hv].
    destruct (input e) as [ | | b | n | s | elements | properties ] eqn:Hin;
      try (destruct (EdgeFacts.guard_bash_no_object st ev ctx e Hev Hname) as [err He];
           [ intros p Hp; rewrite Hin in Hp; discriminate
           | rewrite He in Hv; discriminate ]).
    exists properties. split; [reflexivity|].
    rewrite (EdgeFacts.guard_bash_object st ev ctx e properties Hev Hname Hin) in Hv.
    destruct (JS.lookup "command" properties); cbn in Hv |- *;
      reflexivity || discriminate.
  - intros [properties [Hin Hc]].
    rewrite (EdgeFacts.guard_bash_object st ev ctx e properties Hev Hname Hin).
    destruct (JS.lookup "command" properties); cbn in Hc |- *;
      try discriminate; eexists; reflexivity.
Qed.

Lemma bash_returns_iff_witness :
  (exists v, outcome (tool_call_handler 0 sample_ctx
                        (mkStore [bash_event_without_command] [])) = Normal v) <->
  (exists properties,
      input bash_event_without_command = JS.Object properties /\
      has_includes (JS.lookup "command" properties) = true).
Proof.
  apply (bash_returns_iff (mkStore [bash_event_without_command] []) 0 sample_ctx
           bash_event_without_command); reflexivity.
Defined.

(** X3: a shell tool call whose input object has no [command] key makes the
    handler reject with a TypeError, raised when [includes] is called on
    undefined; no decision is returned and the store is left as it was. *)
Theorem missing_command_rejects
        (st : Store) (ev : EventRef) (ctx : ExtensionContext)
        (e : ToolCallEvent) (properties : list (string * JS.Value)) :
  nth_error (events st) ev = Some e ->
  toolName e = "bash" ->
  input e = JS.Object properties ->
  (forall v, ~ In ("command", v) properties) ->
  tool_call_handler ev ctx st =
    mkRun (Throw (JS.TypeError
             "Cannot read properties of undefined (reading 'includes')"))
          st (full_trace ev).
Proof.
  intros Hev Hname Hin Habs.
  rewrite (EdgeFacts.guard_bash_object st ev ctx e properties Hev Hname Hin).
  rewrite (EdgeFacts.lookup_absent "command" properties Habs). reflexivity.
Qed.

Lemma missing_command_rejects_witness :
  tool_call_handler 0 sample_ctx (mkStore [bash_event_without_command] []) =
    mkRun (Throw (JS.TypeError
             "Cannot read properties of undefined (reading 'includes')"))
          (mkStore [bash_event_without_command] []) (full_trace 0).
Proof.
  apply (missing_command_rejects (mkStore [bash_event_without_command] []) 0
           sample_ctx bash_event_without_command [("timeout", JS.Number 30)]).
  - reflexivity.
  - reflexivity.
  - reflexivity.
  - intros v [H | []]. discriminate H.
Defined.

(** X4: a shell tool call whose input is undefined or null makes the handler
    reject as soon as it reads [command]: [includes] is never called. *)
Theorem missing_input_rejects_early
        (st : Store) (ev : EventRef) (ctx : ExtensionContext) (e : ToolCallEvent) :
  nth_error (events st) ev = Some e ->
  toolName e = "bash" ->
  input e = JS.Undefined \/ input e = JS.Null ->
  (exists message,
      outcome (tool_call_handler ev ctx st) = Throw (JS.TypeError message)) /\
  final (tool_call_handler ev ctx st) = st /\
  trace (tool_call_handler ev ctx st) =
    [Field ev "toolName"; Field ev "input"; Member "command"].
Proof.
  intros Hev Hname Hin. GuardFacts.unfold_guard. rewrite Hev.
  cbn [outcome final trace app]. rewrite Hname. cbn. rewrite Hev. cbn.
  destruct Hin as [-> | ->]; cbn; repeat split; eexists; reflexivity.
Qed.

Lemma missing_input_rejects_early_witness :
  (exists message,
      outcome (tool_call_handler 0 sample_ctx
                 (mkStore [bash_event_without_input] [])) =
        Throw (JS.TypeError message)) /\
  final (tool_call_handler 0 sample_ctx (mkStore [bash_event_without_input] [])) =
    mkStore [bash_event_without_input] [] /\
  trace (tool_call_handler 0 sample_ctx (mkStore [bash_event_without_input] [])) =
    [Field 0 "toolName"; Field 0 "input"; Member "command"].
Proof.
  apply (missing_input_rejects_early (mkStore [bash_event_without_input] []) 0
           sample_ctx bash_event_without_input).
  - reflexivity.
  - reflexivity.
  - left. reflexivity.
Defined.

(** X5: when [command] is an array, [includes] is the array method: the call
    is blocked exactly when some element is the string "sudo" itself; an
    element that merely contains "sudo" does not count. *)
Theorem array_command_needs_exact_element
        (st : Store) (ev : EventRef) (ctx : ExtensionContext)
        (e : ToolCallEvent) (properties : list (string * JS.Value))
        (elements : list JS.Value) :
  nth_error (events st) ev = Some e ->
  toolName e = "bash" ->
  input e = JS.Object properties ->
  JS.lookup "command" properties = JS.Array elements ->
  (In (JS.Str "sudo") elements ->
   outcome (tool_call_handler ev ctx st) =
     Normal (block "dangerous command, sudo is not allowed for agent")) /\
  (~ In (JS.Str "sudo") elements ->
   outcome (tool_call_handler ev ctx st) = Normal JS.Undefined).
Proof.
  intros Hev Hname Hin Hc.
  rewrite (EdgeFacts.guard_bash_object st ev ctx e properties Hev Hname Hin), Hc.
  cbn [outcome]. split; intros H.
  - apply EdgeFacts.array_includes_true_iff in H. rewrite H. reflexivity.
  - destruct (JS.array_includes elements "sudo") eqn:Ha; [|reflexivity].
    apply EdgeFacts.array_includes_true_iff in Ha. contradiction.
Qed.

Lemma array_command_needs_exact_element_witness :
  outcome (tool_call_handler 0 sample_ctx
             (mkStore [bash_event_argv ["sudo rm -rf /"]] [])) = Normal JS.Undefined.
Proof.
  apply (proj2 (array_command_needs_exact_element
                  (mkStore [bash_event_argv ["sudo rm -rf /"]] []) 0 sample_ctx
                  (bash_event_argv ["sudo rm -rf /"])
                  [("command", JS.Array [JS.Str "sudo rm -rf /"])]
                  [JS.Str "sudo rm -rf /"]
                  eq_refl eq_refl eq_refl eq_refl)).
  intros [H | []]. discriminate H.
Defined.

End GuardEdges.

(** ** What the substring test lets through and what it catches *)

Module GuardStrings.
Import Host Security Contract Samples Edges.

(** X6: a shell command of fewer than four characters, the empty command
    included, is never blocked. *)
Theorem short_command_is_allowed
        (st : Store) (ev : EventRef) (ctx : ExtensionContext)
        (e : ToolCallEvent) (command : string) :
  nth_error (events st) ev = Some e ->
  BashToolCallEvent e command ->
  String.length command < 4 ->
  outcome (tool_call_handler ev ctx st) = Normal JS.Undefined.
Proof.
  intros Hev Hbash Hlen.
  rewrite (GuardFacts.guard_bash_command st ev ctx e command Hev Hbash).
  cbn [outcome].
  destruct (JS.includes command "sudo") eqn:Hinc; [|reflexivity].
  apply StringFacts.includes_true_iff, EdgeFacts.contains_length in Hinc.
  cbn in Hinc. lia.
Qed.

Lemma short_command_is_allowed_witness :
  outcome (tool_call_handler 0 sample_ctx (mkStore [bash_event "su"] []))
  = Normal JS.Undefined.
Proof.
  apply (short_command_is_allowed (mkStore [bash_event "su"] []) 0 sample_ctx
           (bash_event "su") "su").
  - reflexivity.
  - split; [reflexivity|]. eexists. split; reflexivity.
  - cbn. lia.
Defined.

(** X7: the test is on the exact lower-case characters.  A shell command in
    which one of the letters s, u, d, o does not occur (an upper-case
    spelling, for one) is allowed. *)
Theorem command_lacking_a_letter_is_allowed
        (st : Store) (ev : EventRef) (ctx : ExtensionContext)
        (e : ToolCallEvent) (command : string) :
  nth_error (events st) ev = Some e ->
  BashToolCallEvent e command ->
  ~ occurs "s" command \/ ~ occurs "u" command \/
  ~ occurs "d" command \/ ~ occurs "o" command ->
  outcome (tool_call_handler ev ctx st) = Normal JS.Undefined.
Proof.
  intros Hev Hbash Hno.
  rewrite (GuardFacts.guard_bash_command st ev ctx e command Hev Hbash).
  cbn [outcome].
  destruct (JS.includes command "sudo") eqn:Hinc; [|reflexivity].
  apply StringFacts.includes_true_iff in Hinc.
  destruct Hinc as [pre [post ->]]. exfalso.
  destruct Hno as [H | [H | [H | H]]]; apply H.
  - apply (EdgeFacts.occurs_app "s" pre).
  - change (pre ++ "sudo" ++ post) with (pre ++ "s" ++ String "u" ("do" ++ post)).
    rewrite <- EdgeFacts.string_app_assoc. apply EdgeFacts.occurs_app.
  - change (pre ++ "sudo" ++ post) with (pre ++ "su" ++ String "d" ("o" ++ post)).
    rewrite <- EdgeFacts.string_app_assoc. apply EdgeFacts.occurs_app.
  - change (pre ++ "sudo" ++ post) with (pre ++ "sud" ++ String "o" post).
    rewrite <- EdgeFacts.string_app_assoc. apply EdgeFacts.occurs_app.
Qed.

Lemma command_lacking_a_letter_is_allowed_witness :
  outcome (tool_call_handler 0 sample_ctx (mkStore [bash_event "SUDO reboot"] []))
  = Normal JS.Undefined.
Proof.
  apply (command_lacking_a_letter_is_allowed
           (mkStore [bash_event "SUDO reboot"] []) 0 sample_ctx
           (bash_event "SUDO reboot") "SUDO reboot").
  - reflexivity.
  - split; [reflexivity|]. eexists. split; reflexivity.
  - left. unfold occurs. cbn.
    intros H. repeat (destruct H as [H | H]; [discriminate H|]). exact H.
Defined.

(** X8: wrapping cannot unblock.  If the guard blocks a shell command, it
    blocks every command that has it as a part, whatever is put before and
    after (a [cd] in front, a pipe behind). *)
Theorem wrapping_keeps_the_block
        (st1 st2 : Store) (ev1 ev2 : EventRef) (ctx1 ctx2 : ExtensionContext)
        (e1 e2 : ToolCallEvent) (before command after : string) (v : JS.Value) :
  nth_error (events st1) ev1 = Some e1 ->
  BashToolCallEvent e1 command ->
  nth_error (events st2) ev2 = Some e2 ->
  BashToolCallEvent e2 (before ++ command ++ after) ->
  outcome (tool_call_handler ev1 ctx1 st1) = Normal v ->
  v <> JS.Undefined ->
  outcome (tool_call_handler ev2 ctx2 st2) = Normal v.
Proof.
  intros H1 B1 H2 B2 Hv Hne.
  rewrite (GuardFacts.guard_bash_command st1 ev1 ctx1 e1 command H1 B1) in Hv.
  rewrite (GuardFacts.guard_bash_command st2 ev2 ctx2 e2 _ H2 B2).
  cbn [outcome] in Hv |- *.
  destruct (JS.includes command "sudo") eqn:Hinc.
  - apply StringFacts.includes_true_iff in Hinc.
    apply (EdgeFacts.contains_wrap before command after) in Hinc.
    apply StringFacts.includes_true_iff in Hinc. rewrite Hinc. exact Hv.
  - inversion Hv. congruence.
Qed.

Lemma wrapping_keeps_the_block_witness :
  outcome (tool_call_handler 0 sample_ctx
             (mkStore [bash_event "cd /tmp && sudo rm -rf / | tee log"] []))
  = Normal (block "dangerous command, sudo is not allowed for agent").
Proof.
  apply (wrapping_keeps_the_block sample_store _ 0 0 sample_ctx sample_ctx
           (bash_event "sudo rm -rf /")
           (bash_event "cd /tmp && sudo rm -rf / | tee log")
           "cd /tmp && " "sudo rm -rf /" " | tee log").
  - reflexivity.
  - split; [reflexivity|]. eexists. split; reflexivity.
  - reflexivity.
  - split; [reflexivity|]. eexists. split; reflexivity.
  - reflexivity.
  - discriminate.
Defined.

End GuardStrings.

(** ** The two extensions side by side *)

Module Composition.
Import Host Security HelloWorld Contract Samples Edges.

(** X9: in every run, whatever the event holds, what the handler touches is
    an initial part of: the discriminator, the input, its [command], one call
    of [includes].  No other property of the event is read, nothing is read
    twice, and [includes] runs at most once. *)
Theorem guard_accesses_are_bounded
        (st : Store) (ev : EventRef) (ctx : ExtensionContext) :
  exists skipped,
    full_trace ev = (trace (tool_call_handler ev ctx st) ++ skipped)%list.
Proof.
  unfold full_trace.
  GuardFacts.guard_cases st ev;
    try match goal with
        | |- context [if ?c then _ else _] => destruct c; cbn
        end;
    eexists; cbn; reflexivity.
Qed.


(** X11: the greeting keeps no count.  Invoked once per entry of any list of
    argument strings, it leaves one "hello world" notification of level info
    per invocation, after the notifications that were there, and the event
    objects untouched. *)
Theorem greeting_repeats
        (ctx : ExtensionContext) (argv : list string) (st : Store) :
  invoke_each hello_handler ctx argv st =
    mkStore (events st)
            (notifications st ++
             repeat (mkNotification "hello world" info) (length argv)).
Proof.
  revert st. induction argv as [|args rest IH]; intros st; cbn [invoke_each].
  - cbn. rewrite app_nil_r. now destruct st.
  - rewrite IH. cbn. rewrite <- app_assoc. reflexivity.
Qed.

(** X12: the two handlers do not get in each other's way.  A greeting in
    between does not change what the guard decides for an event, and a guard
    run in between does not change what the greeting leaves behind. *)
Theorem guard_and_greeting_do_not_interfere
        (st : Store) (ev : EventRef) (ctx ctx' : ExtensionContext) (args : string) :
  outcome (tool_call_handler ev ctx (final (hello_handler args ctx' st))) =
    outcome (tool_call_handler ev ctx st) /\
  hello_handler args ctx' (final (tool_call_handler ev ctx st)) =
    hello_handler args ctx' st.
Proof.
  split.
  - rewrite (GuardFacts.guard_isolated _ ev ctx ctx).
    rewrite (GuardFacts.guard_isolated st ev ctx ctx).
    reflexivity.
  - rewrite GuardFacts.guard_final. reflexivity.
Qed.

End Composition.
